(** * Cronos EVM client

    A shallow embedding of the client library: the token method tables
    [crc20] and [crc721] (integrations/crc20.ts, integrations/crc721.ts),
    the facade [createClient] (lib/client/cronosClient.ts) and the decoding
    helpers [format.*] they call.

    Layout: run-time values and the effect monad, the decoders, the
    transport, the two method tables, the facade, the vocabulary used to
    state the properties, and finally the theorems. *)

From Stdlib Require Import ZArith NArith QArith List String Ascii Lia.
From Stdlib.Strings Require Import Byte.
From Stdlib Require Import DecimalString DecimalN.
From stdpp Require Import gmap strings.

Local Open Scope string_scope.
Local Open Scope list_scope.
Local Open Scope N_scope.

(** ** Run-time values *)

(** A value of TypeScript type [string] as it exists at run time.  The
    response body is parsed JSON and the declared type is not enforced, so a
    field that the node left out reads as [undefined]. *)
Inductive value :=
| undefined
| str (s : string).

(** A thrown JavaScript error object: its [name] ("Error", "AxiosError",
    "SyntaxError", ...) and its [message]. *)
Record JsError := mkJsError { errorName : string; errorMessage : string }.

(** [new Error(msg)] *)
Definition Error (msg : string) : JsError :=
  {| errorName := "Error"; errorMessage := msg |}.

(** Outcome of evaluating an expression or awaiting a promise: a value, or a
    thrown error (a rejected promise). *)
Inductive completion (A : Type) :=
| Normal (a : A)
| Throw (e : JsError).
Arguments Normal {A} a.
Arguments Throw {A} e.

(** ** Decoders (helpers/formatting) *)

(** Modelled from the spec: the module helpers/formatting, which exports
    [format] with [weiToEther], [formatTokenAmount] and [decodeHexString],
    is imported by the method tables but is not part of the sources at
    hand.  The three decoders below follow section 4.4 of the spec; the
    definitions before each of them are the steps the spec names (prefix
    handling, big-integer parsing, decimal printing, header and padding
    removal, UTF-8 interpretation). *)

Module formatting.

(** Value of one hexadecimal digit, either case. *)
Definition hexDigit (c : ascii) : option N :=
  let n := N_of_ascii c in
  if (48 <=? n) && (n <=? 57) then Some (n - 48)
  else if (97 <=? n) && (n <=? 102) then Some (n - 87)
  else if (65 <=? n) && (n <=? 70) then Some (n - 55)
  else None.

(** Left-to-right accumulation of hexadecimal digits. *)
Fixpoint parseHexFrom (acc : N) (s : string) : option N :=
  match s with
  | EmptyString => Some acc
  | String c s' =>
      match hexDigit c with
      | Some d => parseHexFrom (acc * 16 + d) s'
      | None => None
      end
  end.

(** Drops a leading [0x]. *)
Definition stripHexPrefix (s : string) : string :=
  match s with
  | String "0" (String "x" r) => r
  | _ => s
  end.

(** The hexadecimal string as an unsigned big integer; an empty payload is
    zero, a character that is not a hexadecimal digit is a decode error. *)
Definition parseBigInt (s : string) : option N :=
  parseHexFrom 0 (stripHexPrefix s).

(** Decimal representation of a big integer. *)
Definition bigIntToString (n : N) : string :=
  NilZero.string_of_uint (N.to_uint n).

Definition decimalDigit (d : N) : ascii := ascii_of_N (48 + d).

(** The [width] low decimal digits of [n], most significant first, with
    leading zeros kept. *)
Fixpoint fixedDigits (width : nat) (n : N) : string :=
  match width with
  | O => EmptyString
  | S w => fixedDigits w (n / 10) +:+ String (decimalDigit (n mod 10)) EmptyString
  end.

Fixpoint stripTrailingZeros (s : string) : string :=
  match s with
  | EmptyString => EmptyString
  | String c r =>
      match stripTrailingZeros r with
      | EmptyString => if Ascii.eqb c "0" then EmptyString else String c EmptyString
      | r' => String c r'
      end
  end.

(** Decimal string of [n / 10^decimals]: integer part, then, when the
    division is not exact, a point and the fractional digits. *)
Definition scaleToString (n : N) (decimals : nat) : string :=
  let unit := 10 ^ N.of_nat decimals in
  let whole := bigIntToString (n / unit) in
  if n mod unit =? 0 then whole
  else whole +:+ "." +:+ stripTrailingZeros (fixedDigits decimals (n mod unit)).

(** The two decode errors: the payload is absent, or it is not the
    hexadecimal encoding the decoder expects. *)
Definition payloadMissing : JsError :=
  {| errorName := "TypeError"; errorMessage := "hex payload is undefined" |}.
Definition payloadMalformed : JsError :=
  {| errorName := "SyntaxError"; errorMessage := "invalid hex payload" |}.

(** Modelled from the spec: [format.formatTokenAmount] of
    helpers/formatting, which is not part of the sources at hand.  The spec
    (4.4, hex-to-scaled-decimal): parse the hexadecimal string, handling the
    [0x] prefix and arbitrary magnitude, as an unsigned big integer; produce
    its decimal string representation divided by 10^decimals, preserving
    fractional precision; an all-zero or empty hex payload decodes to "0".
    A malformed payload is a decode error thrown by the decoder (7). *)
Definition formatTokenAmount (hex : value) (decimals : nat) : completion string :=
  match hex with
  | undefined => Throw payloadMissing
  | str h =>
      match parseBigInt h with
      | Some n => Normal (scaleToString n decimals)
      | None => Throw payloadMalformed
      end
  end.

(** Modelled from the spec: [format.weiToEther] of helpers/formatting,
    which is not part of the sources at hand.  The spec (4.2): hex-wei to
    decimal-ether string, 18-decimal scaling. *)
Definition weiToEther (wei : value) : completion string :=
  formatTokenAmount wei 18.

(** *** ABI strings *)

Definition byteOfNibbles (hi lo : N) : Byte.byte :=
  match Byte.of_N (hi * 16 + lo) with
  | Some b => b
  | None => Byte.x00
  end.

(** Two hexadecimal digits per byte; an odd number of digits or a character
    that is not a hexadecimal digit is a decode error. *)
Fixpoint hexToBytes (s : string) : option (list Byte.byte) :=
  match s with
  | EmptyString => Some []
  | String _ EmptyString => None
  | String h (String l r) =>
      match hexDigit h, hexDigit l, hexToBytes r with
      | Some hi, Some lo, Some bs => Some (byteOfNibbles hi lo :: bs)
      | _, _, _ => None
      end
  end.

(** A run of bytes read as one big-endian unsigned integer. *)
Definition bigEndian (bs : list Byte.byte) : N :=
  fold_left (fun acc b => acc * 256 + Byte.to_N b) bs 0.

(** The payload carries the two header words of a dynamic string when it is
    at least two 32-byte words long and its first word is the offset 0x20 of
    the string data. *)
Definition hasAbiHeader (bs : list Byte.byte) : bool :=
  (64 <=? length bs)%nat && (bigEndian (take 32 bs) =? 32).

Fixpoint stripTrailingNulls (bs : list Byte.byte) : list Byte.byte :=
  match bs with
  | [] => []
  | b :: r =>
      match stripTrailingNulls r with
      | [] => if Byte.eqb b Byte.x00 then [] else [b]
      | r' => b :: r'
      end
  end.

Definition inRange (lo hi : N) (b : Byte.byte) : bool :=
  (lo <=? Byte.to_N b) && (Byte.to_N b <=? hi).

Definition continuation : Byte.byte -> bool := inRange 0x80 0xBF.

(** Well-formed UTF-8 byte sequences (Unicode, table 3-7): no overlong
    forms, no surrogates, nothing above U+10FFFF. *)
Fixpoint wellFormedUtf8 (bs : list Byte.byte) : bool :=
  match bs with
  | [] => true
  | b0 :: r0 =>
      if inRange 0x00 0x7F b0 then wellFormedUtf8 r0
      else
        match r0 with
        | [] => false
        | b1 :: r1 =>
            if inRange 0xC2 0xDF b0 then continuation b1 && wellFormedUtf8 r1
            else
              match r1 with
              | [] => false
              | b2 :: r2 =>
                  if inRange 0xE0 0xE0 b0 && inRange 0xA0 0xBF b1
                     || inRange 0xE1 0xEC b0 && continuation b1
                     || inRange 0xED 0xED b0 && inRange 0x80 0x9F b1
                     || inRange 0xEE 0xEF b0 && continuation b1
                  then continuation b2 && wellFormedUtf8 r2
                  else
                    match r2 with
                    | [] => false
                    | b3 :: r3 =>
                        (inRange 0xF0 0xF0 b0 && inRange 0x90 0xBF b1
                         || inRange 0xF1 0xF3 b0 && continuation b1
                         || inRange 0xF4 0xF4 b0 && inRange 0x80 0x8F b1)
                        && continuation b2 && continuation b3
                        && wellFormedUtf8 r3
                    end
              end
        end
  end.

(** Modelled from the spec: [format.decodeHexString] of helpers/formatting,
    which is not part of the sources at hand.  The spec (4.4,
    decode-abi-hex-string): a dynamic string is prefixed with offset and
    length words before the UTF-8 payload; the decoder must strip
    non-payload words and interpret only the actual character bytes as
    UTF-8, trimming trailing null-padding bytes, and must tolerate
    already-plain (non-padded) hex-encoded text.  A malformed payload is a
    decode error thrown by the decoder (7).  Text is held as its UTF-8 byte
    sequence, so interpreting well-formed bytes as UTF-8 keeps them. *)
Definition decodeHexString (hex : value) : completion string :=
  match hex with
  | undefined => Throw payloadMissing
  | str h =>
      match hexToBytes (stripHexPrefix h) with
      | Some bytes =>
          let body := if hasAbiHeader bytes then drop 64 bytes else bytes in
          let chars := stripTrailingNulls body in
          if wellFormedUtf8 chars then Normal (string_of_list_byte chars)
          else Throw payloadMalformed
      | None => Throw payloadMalformed
      end
  end.

End formatting.

(** ** Wire data (lib/interfaces) *)

(** Modelled from the spec: the type declarations of lib/interfaces
    (jsonRpcRequest, jsonRpcResponse) are not part of the sources at hand.
    The spec (3): a request payload is [{ method: string, params: ordered
    sequence of (object | string) }]; a response envelope is [{ result: T,
    error: { message: string } }], [error] being absent on success. *)

(** One entry of [params]: a string, or a call object such as
    [{ to: ..., data: ... }]. *)
Inductive param :=
| param_string (s : string)
| param_object (fields : list (string * string)).

Record JsonRpcRequestPayload := { method : string; params : list param }.

Record JsonRpcError := { message : string }.

(** The response envelope.  [error] is [None] when the node sent no error
    object; an object is always truthy, so [if (responseError)] is the test
    for [Some]. *)
Record JsonRpcResponse (T : Type) := { result : T; error : option JsonRpcError }.
Arguments result {T}.
Arguments error {T}.

(** ** Effects *)

(** One POST as it leaves the transport: target, the headers contributed by
    the instance configuration, and the body. *)
Record HttpRequest := {
  requestBaseURL : string;
  requestUrl : string;
  requestHeaders : gmap string string;
  requestBody : JsonRpcRequestPayload
}.

Module axios.

Record AxiosResponse (T : Type) := { data : T }.
Arguments data {T}.

(** What [axios.create] was given; every request of the instance reuses it. *)
Record AxiosInstance := { baseURL : string; headers : gmap string string }.

Definition create (config : AxiosInstance) : AxiosInstance := config.

End axios.

(** The node and the network between: what a request is answered with.  A
    rejected promise (transport failure) is a [Throw]. *)
Definition world : Type :=
  HttpRequest -> completion (axios.AxiosResponse (JsonRpcResponse value)).

Inductive decoder :=
| weiToEther
| decodeHexString
| formatTokenAmount (decimals : nat).

(** Second argument of [logger.error]: a message or a caught error. *)
Inductive logged :=
| logged_message (m : string)
| logged_error (e : JsError).

(** What an operation does that can be observed from outside. *)
Inductive event :=
| Post (request : HttpRequest)
| LogError (tag : string) (detail : logged)
| Decode (f : decoder) (argument : value).

(** An asynchronous computation: it reads the world, leaves a trace of
    events, and completes normally or throws. *)
Definition prog (A : Type) : Type := world -> completion A * list event.

(** [return] and sequencing ([await] included: an awaited rejection is a
    throw at the point of the [await]). *)
#[local] Instance prog_ret : MRet prog := fun A a _ => (Normal a, []).

#[local] Instance prog_bind : MBind prog := fun A B k m w =>
  match m w with
  | (Normal a, t) => let (r, t') := k a w in (r, t ++ t')
  | (Throw e, t) => (Throw e, t)
  end.

Definition throw {A} (e : JsError) : prog A := fun _ => (Throw e, []).

(** [try { body } catch (e) { handler }] *)
Definition try_catch {A} (body : prog A) (handler : JsError -> prog A) : prog A :=
  fun w =>
    match body w with
    | (Normal a, t) => (Normal a, t)
    | (Throw e, t) => let (r, t') := handler e w in (r, t ++ t')
    end.

Definition emit (ev : event) : prog unit := fun _ => (Normal tt, [ev]).

Definition lift {A} (c : completion A) : prog A := fun _ => (c, []).

Notation "'TRY' body 'CATCH' e => handler" := (try_catch body (fun e => handler))
  (at level 10, e name, body at level 200, handler at level 200).

(** [instance.post(url, data)]: one request, answered by the world. *)
Definition post (instance : axios.AxiosInstance) (url : string)
    (data : JsonRpcRequestPayload)
  : prog (axios.AxiosResponse (JsonRpcResponse value)) :=
  fun w =>
    let request := {| requestBaseURL := axios.baseURL instance;
                      requestUrl := url;
                      requestHeaders := axios.headers instance;
                      requestBody := data |} in
    (w request, [Post request]).

(** Modelled from the spec: [logger] of helpers/logger is not part of the
    sources at hand; the spec (6) has it as an external logging
    collaborator that emits the log line.  A call is recorded with its two
    arguments. *)
Module logger.
Definition error (tag : string) (detail : logged) : prog unit :=
  emit (LogError tag detail).
End logger.

(** The object [format] as the method tables use it: each call into the
    decoders is recorded in the trace. *)
Module format.
Definition weiToEther (wei : value) : prog string :=
  emit (Decode weiToEther wei);; lift (formatting.weiToEther wei).
Definition decodeHexString (hex : value) : prog string :=
  emit (Decode decodeHexString hex);; lift (formatting.decodeHexString hex).
Definition formatTokenAmount (hex : value) (decimals : nat) : prog string :=
  emit (Decode (formatTokenAmount decimals) hex);;
  lift (formatting.formatTokenAmount hex decimals).
End format.

(** ** Fungible-token operations (integrations/crc20.ts) *)

Module crc20.

(** Fetches the balance of an account. *)
Definition getBalance (data : JsonRpcRequestPayload)
    (cronosInstance : axios.AxiosInstance) : prog string :=
  TRY
    response ← post cronosInstance EmptyString data;
    let responseError := error (axios.data response) in
    match responseError with
    | Some responseError =>
        logger.error "[crc20/getBalance] error:" (logged_message (message responseError));;
        throw (Error ("[crc20/getBalance] error: " +:+ message responseError))
    | None => mret tt
    end;;
    result ← format.weiToEther (result (axios.data response));
    mret result
  CATCH e =>
    logger.error "[crc20/getBalance] error:" (logged_error e);;
    throw e.

(** Fetches the token balance of an account for a specified contract. *)
Definition getBalanceOf (data : JsonRpcRequestPayload)
    (cronosInstance : axios.AxiosInstance) : prog string :=
  TRY
    response ← post cronosInstance EmptyString data;
    let responseError := error (axios.data response) in
    match responseError with
    | Some responseError =>
        logger.error "[crc20/getBalanceOf] error:" (logged_message (message responseError));;
        throw (Error ("[crc20/getBalanceOf] error: " +:+ message responseError))
    | None => mret tt
    end;;
    result ← format.weiToEther (result (axios.data response));
    mret result
  CATCH e =>
    logger.error "[crc20/getBalanceOf] error:" (logged_error e);;
    throw e.

(** Fetches the name of the CRC20 token. *)
Definition getName (data : JsonRpcRequestPayload)
    (cronosInstance : axios.AxiosInstance) : prog string :=
  TRY
    response ← post cronosInstance EmptyString data;
    let responseError := error (axios.data response) in
    match responseError with
    | Some responseError =>
        logger.error "[crc20/getName] error:" (logged_message (message responseError));;
        throw (Error ("[crc20/getName] error: " +:+ message responseError))
    | None => mret tt
    end;;
    result ← format.decodeHexString (result (axios.data response));
    mret result
  CATCH e =>
    logger.error "[crc20/getName] error:" (logged_error e);;
    throw e.

(** Fetches the symbol of the CRC20 token. *)
Definition getSymbol (data : JsonRpcRequestPayload)
    (cronosInstance : axios.AxiosInstance) : prog string :=
  TRY
    response ← post cronosInstance EmptyString data;
    let responseError := error (axios.data response) in
    match responseError with
    | Some responseError =>
        logger.error "[crc20/getSymbol] error:" (logged_message (message responseError));;
        throw (Error ("[crc20/getSymbol] error: " +:+ message responseError))
    | None => mret tt
    end;;
    result ← format.decodeHexString (result (axios.data response));
    mret result
  CATCH e =>
    logger.error "[crc20/getSymbol] error:" (logged_error e);;
    throw e.

(** Fetches the total supply of the CRC20 token. *)
Definition getTotalSupply (data : JsonRpcRequestPayload)
    (cronosInstance : axios.AxiosInstance) : prog string :=
  TRY
    response ← post cronosInstance EmptyString data;
    let responseError := error (axios.data response) in
    match responseError with
    | Some responseError =>
        logger.error "[crc20/getTotalSupply] error:" (logged_message (message responseError));;
        throw (Error ("[crc20/getTotalSupply] error: " +:+ message responseError))
    | None => mret tt
    end;;
    result ← format.formatTokenAmount (result (axios.data response)) 6;
    mret result
  CATCH e =>
    logger.error "[crc20/getTotalSupply] error:" (logged_error e);;
    throw e.

End crc20.

(** ** Non-fungible-token operations (integrations/crc721.ts) *)

Module crc721.

(** Fetches the token balance of an account for a specified contract. *)
Definition getBalanceOf (data : JsonRpcRequestPayload)
    (cronosInstance : axios.AxiosInstance) : prog string :=
  TRY
    response ← post cronosInstance EmptyString data;
    let responseError := error (axios.data response) in
    match responseError with
    | Some responseError =>
        logger.error "[crc721/getBalanceOf] error:" (logged_message (message responseError));;
        throw (Error ("[crc721/getBalanceOf] error: " +:+ message responseError))
    | None => mret tt
    end;;
    result ← format.formatTokenAmount (result (axios.data response)) 0;
    mret result
  CATCH e =>
    logger.error "[crc721/getBalanceOf] error:" (logged_error e);;
    throw e.

(** Fetches the owner address for a specified contract. *)
Definition getOwnerOf (data : JsonRpcRequestPayload)
    (cronosInstance : axios.AxiosInstance) : prog value :=
  TRY
    response ← post cronosInstance EmptyString data;
    let responseError := error (axios.data response) in
    match responseError with
    | Some responseError =>
        logger.error "[crc721/getOwnerOf] error:" (logged_message (message responseError));;
        throw (Error ("[crc721/getOwnerOf] error: " +:+ message responseError))
    | None => mret tt
    end;;
    let result := result (axios.data response) in
    mret result
  CATCH e =>
    logger.error "[crc721/getOwnerOf] error:" (logged_error e);;
    throw e.

(** Fetches the uri for a specified contract.  The tags are those of the
    source, which names [getBalanceOf] here. *)
Definition getTokenUri (data : JsonRpcRequestPayload)
    (cronosInstance : axios.AxiosInstance) : prog string :=
  TRY
    response ← post cronosInstance EmptyString data;
    let responseError := error (axios.data response) in
    match responseError with
    | Some responseError =>
        logger.error "[crc721/getBalanceOf] error:" (logged_message (message responseError));;
        throw (Error ("[crc721/getBalanceOf] error: " +:+ message responseError))
    | None => mret tt
    end;;
    result ← format.decodeHexString (result (axios.data response));
    mret result
  CATCH e =>
    logger.error "[crc721/getBalanceOf] error:" (logged_error e);;
    throw e.

End crc721.

(** ** Facade (lib/client/cronosClient.ts) *)

(** JavaScript truthiness of a [string | undefined]: [undefined] and the
    empty string are falsy. *)
Definition truthy (v : value) : bool :=
  match v with
  | undefined => false
  | str EmptyString => false
  | str _ => true
  end.

(** Template-literal interpolation [`${v}`]. *)
Definition interpolate (v : value) : string :=
  match v with
  | undefined => "undefined"
  | str s => s
  end.

Record ClientConfig := { endpoint : string; apiKey : value }.

Module CRC20.
Record methods := {
  getBalance : JsonRpcRequestPayload -> prog string;
  getBalanceOf : JsonRpcRequestPayload -> prog string;
  getName : JsonRpcRequestPayload -> prog string;
  getSymbol : JsonRpcRequestPayload -> prog string;
  getTotalSupply : JsonRpcRequestPayload -> prog string
}.
End CRC20.

Module CRC721.
Record methods := {
  getBalanceOf : JsonRpcRequestPayload -> prog string;
  getOwnerOf : JsonRpcRequestPayload -> prog value;
  getTokenUri : JsonRpcRequestPayload -> prog string
}.
End CRC721.

Record BlockchainClient := { crc20 : CRC20.methods; crc721 : CRC721.methods }.

Definition createClient (config : ClientConfig) : BlockchainClient :=
  let instance :=
    axios.create
      {| axios.baseURL := endpoint config;
         axios.headers :=
           if truthy (apiKey config)
           then {[ "Authorization" := "Bearer " +:+ interpolate (apiKey config) ]}
           else ∅ |} in
  {| crc20 :=
       {| CRC20.getBalance := fun data => crc20.getBalance data instance;
          CRC20.getBalanceOf := fun data => crc20.getBalanceOf data instance;
          CRC20.getName := fun data => crc20.getName data instance;
          CRC20.getSymbol := fun data => crc20.getSymbol data instance;
          CRC20.getTotalSupply := fun data => crc20.getTotalSupply data instance |};
     crc721 :=
       {| CRC721.getBalanceOf := fun data => crc721.getBalanceOf data instance;
          CRC721.getOwnerOf := fun data => crc721.getOwnerOf data instance;
          CRC721.getTokenUri := fun data => crc721.getTokenUri data instance |} |}.

(** ** Vocabulary of the properties *)

(** The eight operations a client exposes. *)
Inductive operation :=
| crc20_getBalance
| crc20_getBalanceOf
| crc20_getName
| crc20_getSymbol
| crc20_getTotalSupply
| crc721_getBalanceOf
| crc721_getOwnerOf
| crc721_getTokenUri.

Definition moduleName (op : operation) : string :=
  match op with
  | crc20_getBalance | crc20_getBalanceOf | crc20_getName
  | crc20_getSymbol | crc20_getTotalSupply => "crc20"
  | crc721_getBalanceOf | crc721_getOwnerOf | crc721_getTokenUri => "crc721"
  end.

Definition operationName (op : operation) : string :=
  match op with
  | crc20_getBalance => "getBalance"
  | crc20_getBalanceOf => "getBalanceOf"
  | crc20_getName => "getName"
  | crc20_getSymbol => "getSymbol"
  | crc20_getTotalSupply => "getTotalSupply"
  | crc721_getBalanceOf => "getBalanceOf"
  | crc721_getOwnerOf => "getOwnerOf"
  | crc721_getTokenUri => "getTokenUri"
  end.

(** The identity of an operation as the tags spell it:
    [[<module>/<operation>]]. *)
Definition identity (op : operation) : string :=
  "[" +:+ moduleName op +:+ "/" +:+ operationName op +:+ "]".

(** An operation's promise settled: resolved with a value or rejected, and
    the trace it left. *)
Definition settled : Type := completion value * list event.

Definition settle (r : completion string * list event) : settled :=
  (match r.1 with Normal s => Normal (str s) | Throw e => Throw e end, r.2).

(** Calling operation [op] of a client on payload [data] in world [w]. *)
Definition call (client : BlockchainClient) (op : operation)
    (data : JsonRpcRequestPayload) (w : world) : settled :=
  match op with
  | crc20_getBalance => settle (CRC20.getBalance (crc20 client) data w)
  | crc20_getBalanceOf => settle (CRC20.getBalanceOf (crc20 client) data w)
  | crc20_getName => settle (CRC20.getName (crc20 client) data w)
  | crc20_getSymbol => settle (CRC20.getSymbol (crc20 client) data w)
  | crc20_getTotalSupply => settle (CRC20.getTotalSupply (crc20 client) data w)
  | crc721_getBalanceOf => settle (CRC721.getBalanceOf (crc721 client) data w)
  | crc721_getOwnerOf => CRC721.getOwnerOf (crc721 client) data w
  | crc721_getTokenUri => settle (CRC721.getTokenUri (crc721 client) data w)
  end.

(** A world in which the node answers every request with one envelope. *)
Definition answering (envelope : JsonRpcResponse value) : world :=
  fun _ => Normal {| axios.data := envelope |}.

(** A world in which the transport fails with [e]. *)
Definition failing (e : JsError) : world := fun _ => Throw e.

(** [sub] occurs in [s]. *)
Definition contains (s sub : string) : Prop :=
  exists before after, s = before +:+ sub +:+ after.

(** The requests of a trace, in order. *)
Definition requests (t : list event) : list HttpRequest :=
  omap (fun ev => match ev with Post r => Some r | _ => None end) t.

(** The tags of the log lines of a trace, in order. *)
Definition logTags (t : list event) : list string :=
  omap (fun ev => match ev with LogError tag _ => Some tag | _ => None end) t.

(** The second arguments of the log lines of a trace, in order. *)
Definition logDetails (t : list event) : list logged :=
  omap (fun ev => match ev with LogError _ detail => Some detail | _ => None end) t.

(** A trace without its log lines: the requests and decoder calls. *)
Definition withoutLogs (t : list event) : list event :=
  omap (fun ev => match ev with LogError _ _ => None | _ => Some ev end) t.

(** The request a client built from [config] sends for payload [data]. *)
Definition requestOf (config : ClientConfig) (data : JsonRpcRequestPayload)
  : HttpRequest :=
  {| requestBaseURL := endpoint config;
     requestUrl := EmptyString;
     requestHeaders :=
       if truthy (apiKey config)
       then {[ "Authorization" := "Bearer " +:+ interpolate (apiKey config) ]}
       else ∅;
     requestBody := data |}.

(** The tag each operation writes in its log lines and error messages. *)
Definition codeTag (op : operation) : string :=
  match op with
  | crc20_getBalance => "[crc20/getBalance]"
  | crc20_getBalanceOf => "[crc20/getBalanceOf]"
  | crc20_getName => "[crc20/getName]"
  | crc20_getSymbol => "[crc20/getSymbol]"
  | crc20_getTotalSupply => "[crc20/getTotalSupply]"
  | crc721_getBalanceOf => "[crc721/getBalanceOf]"
  | crc721_getOwnerOf => "[crc721/getOwnerOf]"
  | crc721_getTokenUri => "[crc721/getBalanceOf]"
  end.

(** The decoder each operation applies to a successful result, if any. *)
Definition decoderOf (op : operation) : option decoder :=
  match op with
  | crc20_getBalance | crc20_getBalanceOf => Some weiToEther
  | crc20_getName | crc20_getSymbol | crc721_getTokenUri => Some decodeHexString
  | crc20_getTotalSupply => Some (formatTokenAmount 6)
  | crc721_getBalanceOf => Some (formatTokenAmount 0)
  | crc721_getOwnerOf => None
  end.

Definition applyDecoder (d : decoder) (v : value) : completion string :=
  match d with
  | weiToEther => formatting.weiToEther v
  | decodeHexString => formatting.decodeHexString v
  | formatTokenAmount decimals => formatting.formatTokenAmount v decimals
  end.

(** The three ways a call can go, spelled out: transport failure, node
    error, success (followed by the decoder, which may itself throw). *)
Definition course (tag : string) (d : option decoder) (request : HttpRequest)
    (w : world) : settled :=
  match w request with
  | Throw e => (Throw e, [Post request; LogError (tag +:+ " error:") (logged_error e)])
  | Normal response =>
      match error (axios.data response) with
      | Some responseError =>
          let e := Error (tag +:+ " error: " +:+ message responseError) in
          (Throw e,
           [Post request;
            LogError (tag +:+ " error:") (logged_message (message responseError));
            LogError (tag +:+ " error:") (logged_error e)])
      | None =>
          let r := result (axios.data response) in
          match d with
          | None => (Normal r, [Post request])
          | Some d =>
              match applyDecoder d r with
              | Normal s => (Normal (str s), [Post request; Decode d r])
              | Throw e =>
                  (Throw e,
                   [Post request; Decode d r;
                    LogError (tag +:+ " error:") (logged_error e)])
              end
          end
      end
  end.

(** *** Reading numerals *)

(** Position of a character in an alphabet of digits, counted from 0. *)
Fixpoint position (alphabet : string) (c : ascii) : option N :=
  match alphabet with
  | EmptyString => None
  | String a rest =>
      if Ascii.eqb a c then Some 0 else option_map N.succ (position rest c)
  end.

(** A hexadecimal digit is worth its position among the sixteen digits,
    written in either case. *)
Definition hexDigitValue (c : ascii) : option N :=
  match position "0123456789abcdef" c with
  | Some d => Some d
  | None => position "0123456789ABCDEF" c
  end.

(** A decimal digit is worth its position among the ten digits. *)
Definition decimalDigitValue (c : ascii) : option N :=
  position "0123456789" c.

(** The digits of a numeral, when every character is a digit. *)
Fixpoint digitsOf (digit : ascii -> option N) (s : string) : option (list N) :=
  match s with
  | EmptyString => Some []
  | String c r =>
      match digit c, digitsOf digit r with
      | Some d, Some ds => Some (d :: ds)
      | _, _ => None
      end
  end.

(** Positional value of digits written most significant first:
    the sum of [d_i * base^(number of digits after d_i)]. *)
Fixpoint positional (base : N) (digits : list N) : N :=
  match digits with
  | [] => 0
  | d :: r => d * base ^ N.of_nat (length r) + positional base r
  end.

(** A decimal numeral cut at its point. *)
Fixpoint splitAtPoint (s : string) : string * option string :=
  match s with
  | EmptyString => (EmptyString, None)
  | String c r =>
      if Ascii.eqb c "."
      then (EmptyString, Some r)
      else let (whole, fraction) := splitAtPoint r in (String c whole, fraction)
  end.

(** The rational number a decimal numeral denotes: [w] or [w.f], read as
    [w + f / 10^(number of digits of f)]. *)
Definition decimalValue (s : string) : option Q :=
  let (whole, fraction) := splitAtPoint s in
  match digitsOf decimalDigitValue whole, fraction with
  | Some (w :: ws), None =>
      Some (inject_Z (Z.of_N (positional 10 (w :: ws))))
  | Some (w :: ws), Some f =>
      match digitsOf decimalDigitValue f with
      | Some (d :: ds) =>
          Some (inject_Z (Z.of_N (positional 10 (w :: ws)))
                + inject_Z (Z.of_N (positional 10 (d :: ds)))
                  / inject_Z (10 ^ Z.of_nat (length (d :: ds))))%Q
      | _ => None
      end
  | _, _ => None
  end.

(** A run of [k] zero digits. *)
Fixpoint zeros (k : nat) : string :=
  match k with
  | O => EmptyString
  | S k => String "0" (zeros k)
  end.

(** *** ABI layout of a dynamic string *)

Definition byteOfN (n : N) : Byte.byte :=
  match Byte.of_N n with
  | Some b => b
  | None => Byte.x00
  end.

(** Lower-case hexadecimal digit of a value below 16. *)
Definition hexChar (d : N) : ascii :=
  if d <? 10 then ascii_of_N (48 + d) else ascii_of_N (87 + d).

(** Hexadecimal encoding of bytes, two digits each. *)
Fixpoint toHex (bs : list Byte.byte) : string :=
  match bs with
  | [] => EmptyString
  | b :: r =>
      String (hexChar (Byte.to_N b / 16))
        (String (hexChar (Byte.to_N b mod 16)) (toHex r))
  end.

(** [n] as [width] bytes, big-endian. *)
Fixpoint wordBytes (width : nat) (n : N) : list Byte.byte :=
  match width with
  | O => []
  | S w => wordBytes w (n / 256) ++ [byteOfN (n mod 256)]
  end.

(** One 32-byte ABI word. *)
Definition uint256 (n : N) : list Byte.byte := wordBytes 32 n.

(** Null bytes needed to reach the next 32-byte boundary. *)
Definition padding (len : nat) : nat := ((32 - len mod 32) mod 32)%nat.

(** The standard ABI layout of a returned dynamic string: the offset word
    (0x20), the length word, and the UTF-8 payload right-padded with null
    bytes to a 32-byte boundary. *)
Definition abiEncodeString (s : string) : list Byte.byte :=
  let payload := list_byte_of_string s in
  uint256 32 ++ uint256 (N.of_nat (length payload))
  ++ payload ++ repeat Byte.x00 (padding (length payload)).

(** Plain text: well-formed UTF-8 without the null character. *)
Definition plainText (s : string) : bool :=
  let payload := list_byte_of_string s in
  formatting.wellFormedUtf8 payload
  && forallb (fun b => negb (Byte.eqb b Byte.x00)) payload.

(** *** Auxiliary definitions of the proofs *)

(** Horner evaluation, the way the parsers accumulate. *)
Definition horner (base acc : N) (digits : list N) : N :=
  fold_left (fun a d => a * base + d) digits acc.

(** The digits of a [Decimal.uint], to relate the library's printer to
    [digitsOf]. *)
Fixpoint uintDigits (u : Decimal.uint) : list N :=
  match u with
  | Decimal.Nil => []
  | Decimal.D0 l => 0 :: uintDigits l
  | Decimal.D1 l => 1 :: uintDigits l
  | Decimal.D2 l => 2 :: uintDigits l
  | Decimal.D3 l => 3 :: uintDigits l
  | Decimal.D4 l => 4 :: uintDigits l
  | Decimal.D5 l => 5 :: uintDigits l
  | Decimal.D6 l => 6 :: uintDigits l
  | Decimal.D7 l => 7 :: uintDigits l
  | Decimal.D8 l => 8 :: uintDigits l
  | Decimal.D9 l => 9 :: uintDigits l
  end.

(** *** Sample inputs *)

Definition sampleConfig : ClientConfig :=
  {| endpoint := "https://evm.cronos.org"; apiKey := str "secret" |}.

Definition samplePayload : JsonRpcRequestPayload :=
  {| method := "eth_call";
     params := [param_object [("to", "0xContractAddress"); ("data", "0x70a08231")];
                param_string "latest"] |}.

Definition revert : JsonRpcResponse value :=
  {| result := undefined; error := Some {| message := "execution reverted" |} |}.

(** A successful envelope. *)
Definition success (r : string) : JsonRpcResponse value :=
  {| result := str r; error := None |}.

Definition networkError : JsError :=
  {| errorName := "AxiosError"; errorMessage := "Network Error" |}.

(** * Theorems *)

(** ** The decoders on sample payloads *)

Example weiToEther_one : formatting.weiToEther (str "0x0de0b6b3a7640000") = Normal "1".
Proof. reflexivity. Qed.

Example weiToEther_fraction :
  formatting.weiToEther (str "0x14d1120d7b160000") = Normal "1.5".
Proof. reflexivity. Qed.

Example formatTokenAmount_small :
  formatting.formatTokenAmount (str "0x1") 6 = Normal "0.000001".
Proof. reflexivity. Qed.

Example formatTokenAmount_malformed :
  formatting.formatTokenAmount (str "0xzz") 6 = Throw formatting.payloadMalformed.
Proof. reflexivity. Qed.

Example decodeHexString_abi :
  formatting.decodeHexString
    (str ("0x0000000000000000000000000000000000000000000000000000000000000020"
          +:+ "000000000000000000000000000000000000000000000000000000000000000b"
          +:+ "577261707065642043524f000000000000000000000000000000000000000000"))
  = Normal "Wrapped CRO".
Proof. reflexivity. Qed.

Example decodeHexString_plain : formatting.decodeHexString (str "0x43524f") = Normal "CRO".
Proof. reflexivity. Qed.

Example abiEncodeString_sample :
  toHex (abiEncodeString "CRO")
  = "0000000000000000000000000000000000000000000000000000000000000020"
    +:+ "0000000000000000000000000000000000000000000000000000000000000003"
    +:+ "43524f0000000000000000000000000000000000000000000000000000000000".
Proof. reflexivity. Qed.

Example decimalValue_sample : decimalValue "12.5" = Some (12 + 5 / 10)%Q.
Proof. reflexivity. Qed.

(** ** Strings *)

Lemma append_cons (c : ascii) (s t : string) :
  String c s +:+ t = String c (s +:+ t).
Proof. reflexivity. Qed.

Lemma append_nil_r (s : string) : s +:+ EmptyString = s.
Proof. induction s as [|c s IH]; [reflexivity|]. now rewrite append_cons, IH. Qed.

Lemma append_assoc (s t u : string) : (s +:+ t) +:+ u = s +:+ (t +:+ u).
Proof. induction s as [|c s IH]; [reflexivity|]. now rewrite !append_cons, IH. Qed.

Lemma length_append (s t : string) :
  String.length (s +:+ t) = (String.length s + String.length t)%nat.
Proof. induction s as [|c s IH]; [reflexivity|]. rewrite append_cons. cbn. now rewrite IH. Qed.

(** ** Every call follows one of the three courses *)

Section Courses.

Variables (data : JsonRpcRequestPayload) (instance : axios.AxiosInstance).
Variable w : world.

Let request : HttpRequest :=
  {| requestBaseURL := axios.baseURL instance;
     requestUrl := EmptyString;
     requestHeaders := axios.headers instance;
     requestBody := data |}.

Ltac run_course :=
  unfold course, settle, try_catch, mbind, prog_bind, mret, prog_ret, post,
    logger.error, emit, throw, lift,
    format.weiToEther, format.decodeHexString, format.formatTokenAmount,
    applyDecoder;
  fold request;
  destruct (w request) as [[[r [err|]]]|e]; cbn [axios.data error result message fst snd app];
  try reflexivity;
  match goal with
  | |- context [formatting.weiToEther ?v] => destruct (formatting.weiToEther v)
  | |- context [formatting.decodeHexString ?v] => destruct (formatting.decodeHexString v)
  | |- context [formatting.formatTokenAmount ?v ?n] => destruct (formatting.formatTokenAmount v n)
  end; reflexivity.

Lemma getBalance_course :
  settle (crc20.getBalance data instance w)
  = course "[crc20/getBalance]" (Some weiToEther) request w.
Proof. unfold crc20.getBalance. run_course. Qed.

Lemma getBalanceOf_course :
  settle (crc20.getBalanceOf data instance w)
  = course "[crc20/getBalanceOf]" (Some weiToEther) request w.
Proof. unfold crc20.getBalanceOf. run_course. Qed.

Lemma getName_course :
  settle (crc20.getName data instance w)
  = course "[crc20/getName]" (Some decodeHexString) request w.
Proof. unfold crc20.getName. run_course. Qed.

Lemma getSymbol_course :
  settle (crc20.getSymbol data instance w)
  = course "[crc20/getSymbol]" (Some decodeHexString) request w.
Proof. unfold crc20.getSymbol. run_course. Qed.

Lemma getTotalSupply_course :
  settle (crc20.getTotalSupply data instance w)
  = course "[crc20/getTotalSupply]" (Some (formatTokenAmount 6)) request w.
Proof. unfold crc20.getTotalSupply. run_course. Qed.

Lemma nft_getBalanceOf_course :
  settle (crc721.getBalanceOf data instance w)
  = course "[crc721/getBalanceOf]" (Some (formatTokenAmount 0)) request w.
Proof. unfold crc721.getBalanceOf. run_course. Qed.

Lemma getOwnerOf_course :
  crc721.getOwnerOf data instance w
  = course "[crc721/getOwnerOf]" None request w.
Proof. unfold crc721.getOwnerOf. run_course. Qed.

Lemma getTokenUri_course :
  settle (crc721.getTokenUri data instance w)
  = course "[crc721/getBalanceOf]" (Some decodeHexString) request w.
Proof. unfold crc721.getTokenUri. run_course. Qed.

End Courses.

(** Through the facade: every operation of a created client follows the
    course of its tag and decoder, on the request of the configuration. *)
Lemma call_course (config : ClientConfig) (op : operation)
    (data : JsonRpcRequestPayload) (w : world) :
  call (createClient config) op data w
  = course (codeTag op) (decoderOf op) (requestOf config data) w.
Proof.
  unfold createClient, axios.create, requestOf.
  set (hs := if truthy (apiKey config) then _ else _).
  destruct op; cbn [call crc20 crc721 CRC20.getBalance CRC20.getBalanceOf
    CRC20.getName CRC20.getSymbol CRC20.getTotalSupply CRC721.getBalanceOf
    CRC721.getOwnerOf CRC721.getTokenUri codeTag decoderOf].
  - apply getBalance_course.
  - apply getBalanceOf_course.
  - apply getName_course.
  - apply getSymbol_course.
  - apply getTotalSupply_course.
  - apply nft_getBalanceOf_course.
  - apply getOwnerOf_course.
  - apply getTokenUri_course.
Qed.

(** Apart from [crc721.getTokenUri], the tag an operation writes is its own
    identity. *)
Lemma codeTag_identity (op : operation) :
  op <> crc721_getTokenUri -> codeTag op = identity op.
Proof. destruct op; intros H; try reflexivity. contradiction. Qed.

Lemma contains_suffix (before s : string) : contains (before +:+ s) s.
Proof.
  exists before, EmptyString. now rewrite append_nil_r.
Qed.

Lemma requests_course (tag : string) (d : option decoder)
    (request : HttpRequest) (w : world) :
  requests (course tag d request w).2 = [request].
Proof.
  unfold course.
  destruct (w request) as [[[r [err|]]]|e]; cbn [axios.data error result];
    [reflexivity| |reflexivity].
  destruct d as [d|]; [|reflexivity].
  destruct (applyDecoder d r); reflexivity.
Qed.

Lemma logTags_course (tag : string) (d : option decoder)
    (request : HttpRequest) (w : world) (t : string) :
  t ∈ logTags (course tag d request w).2 -> t = tag +:+ " error:".
Proof.
  unfold course.
  destruct (w request) as [[[r [err|]]]|e]; cbn [axios.data error result].
  - cbn. rewrite !elem_of_cons, elem_of_nil. tauto.
  - destruct d as [d|]; [destruct (applyDecoder d r)|]; cbn;
      rewrite ?elem_of_cons, elem_of_nil; tauto.
  - cbn. rewrite !elem_of_cons, elem_of_nil. tauto.
Qed.

Lemma thrown_course_logs (tag : string) (d : option decoder)
    (request : HttpRequest) (w : world) (e : JsError) :
  (course tag d request w).1 = Throw e ->
  logTags (course tag d request w).2 <> [].
Proof.
  unfold course.
  destruct (w request) as [[[r [err|]]]|e']; cbn [axios.data error result];
    [discriminate| |discriminate].
  destruct d as [d|]; [destruct (applyDecoder d r)|]; cbn; discriminate.
Qed.

Lemma authorization_lookup (config : ClientConfig) (data : JsonRpcRequestPayload) :
  requestHeaders (requestOf config data) !! "Authorization"
  = if truthy (apiKey config)
    then Some ("Bearer " +:+ interpolate (apiKey config))
    else None.
Proof.
  unfold requestOf. cbn [requestHeaders].
  destruct (truthy (apiKey config)).
  - apply lookup_singleton_eq.
  - apply lookup_empty.
Qed.

(** ** Node-reported errors *)

(** C1. Whatever the operation, a response envelope whose [error] field is
    populated makes the call fail with a message that contains the node's
    error message, and no decode function is invoked on the result. *)
Theorem node_error_rejects (config : ClientConfig) (op : operation)
    (data : JsonRpcRequestPayload) (w : world) (r : value)
    (responseError : JsonRpcError) :
  w (requestOf config data)
    = Normal {| axios.data := {| result := r; error := Some responseError |} |} ->
  exists e trace,
    call (createClient config) op data w = (Throw e, trace)
    /\ contains (errorMessage e) (message responseError)
    /\ forall f argument, Decode f argument ∉ trace.
Proof.
  intros Hw. rewrite call_course. unfold course. rewrite Hw.
  cbn [axios.data error result]. eexists _, _. split; [reflexivity|]. split.
  - cbn [Error errorMessage]. rewrite <- append_assoc. apply contains_suffix.
  - intros f v. rewrite !elem_of_cons, elem_of_nil. intros [H|[H|[H|[]]]]; discriminate H.
Qed.

Lemma node_error_rejects_witness :
  exists e trace,
    call (createClient sampleConfig) crc20_getName samplePayload (answering revert)
      = (Throw e, trace)
    /\ contains (errorMessage e) "execution reverted"
    /\ forall f argument, Decode f argument ∉ trace.
Proof.
  apply (node_error_rejects sampleConfig crc20_getName samplePayload
           (answering revert) undefined {| message := "execution reverted" |}).
  reflexivity.
Defined.

(** ** Failure reporting *)

(** C2 as stated fails: a transport failure reaches the caller as the
    transport's own error, whose message carries no operation tag. *)
Lemma transport_failure_untagged :
  (call (createClient sampleConfig) crc20_getBalance samplePayload
     (failing networkError)).1 = Throw networkError
  /\ ~ exists m,
        errorMessage networkError
        = identity crc20_getBalance +:+ " error: " +:+ m.
Proof.
  split.
  - rewrite call_course. reflexivity.
  - intros [m H]. cbv in H. discriminate H.
Qed.

(** A node-reported error during [crc721.getTokenUri] is reported under the
    tag of [getBalanceOf]. *)
Lemma getTokenUri_node_error_tag :
  (call (createClient sampleConfig) crc721_getTokenUri samplePayload
     (answering revert)).1
  = Throw (Error "[crc721/getBalanceOf] error: execution reverted").
Proof. rewrite call_course. reflexivity. Qed.

(** C2, amended.  For every operation: every failure path writes at least
    one log line; a transport failure and a decode failure reach the caller
    as the original error, unchanged, so without a tag.  For every operation
    other than [crc721.getTokenUri]: every log line is tagged with the
    operation's own identity, ["[<module>/<operation>] error:"], and a
    node-reported error reaches the caller as
    ["[<module>/<operation>] error: <node message>"]. *)
Theorem failure_reporting (config : ClientConfig) (op : operation)
    (data : JsonRpcRequestPayload) (w : world) :
  let outcome := call (createClient config) op data w in
  (forall e, outcome.1 = Throw e -> logTags outcome.2 <> [])
  /\ (forall e, w (requestOf config data) = Throw e -> outcome.1 = Throw e)
  /\ (forall r d e,
        w (requestOf config data)
          = Normal {| axios.data := {| result := r; error := None |} |} ->
        decoderOf op = Some d -> applyDecoder d r = Throw e ->
        outcome.1 = Throw e)
  /\ (op <> crc721_getTokenUri ->
      (forall tag, tag ∈ logTags outcome.2 -> tag = identity op +:+ " error:")
      /\ (forall r responseError,
            w (requestOf config data)
              = Normal {| axios.data := {| result := r; error := Some responseError |} |} ->
            outcome.1
            = Throw (Error (identity op +:+ " error: " +:+ message responseError)))).
Proof.
  intros outcome. subst outcome. rewrite call_course.
  split; [|split; [|split; [|intros Hop; split]]].
  - apply thrown_course_logs.
  - intros e Hw. unfold course. now rewrite Hw.
  - intros r d e Hw Hd He. unfold course. rewrite Hw, Hd.
    cbn [axios.data error result]. now rewrite He.
  - rewrite (codeTag_identity op Hop). apply logTags_course.
  - intros r responseError Hw. rewrite (codeTag_identity op Hop).
    unfold course. now rewrite Hw.
Qed.

Lemma failure_reporting_witness :
  crc20_getTotalSupply <> crc721_getTokenUri
  /\ (call (createClient sampleConfig) crc20_getTotalSupply samplePayload
        (answering revert)).1
     = Throw (Error "[crc20/getTotalSupply] error: execution reverted")
  /\ (call (createClient sampleConfig) crc721_getTokenUri samplePayload
        (failing networkError)).1
     = Throw networkError.
Proof.
  split; [discriminate|]. split.
  - exact (proj2 (proj2 (proj2 (proj2
             (failure_reporting sampleConfig crc20_getTotalSupply samplePayload
                (answering revert))))
             ltac:(discriminate))
             undefined {| message := "execution reverted" |} eq_refl).
  - exact (proj1 (proj2
             (failure_reporting sampleConfig crc721_getTokenUri samplePayload
                (failing networkError)))
             networkError eq_refl).
Defined.

(** ** Successful results *)

Lemma call_success (config : ClientConfig) (op : operation)
    (data : JsonRpcRequestPayload) (w : world) (r : value) (d : decoder) :
  w (requestOf config data)
    = Normal {| axios.data := {| result := r; error := None |} |} ->
  decoderOf op = Some d ->
  call (createClient config) op data w
  = match applyDecoder d r with
    | Normal s => (Normal (str s), [Post (requestOf config data); Decode d r])
    | Throw e =>
        (Throw e,
         [Post (requestOf config data); Decode d r;
          LogError (codeTag op +:+ " error:") (logged_error e)])
    end.
Proof.
  intros Hw Hd. rewrite call_course. unfold course. rewrite Hw, Hd. reflexivity.
Qed.



(** C7. For every successful response envelope [crc721.getOwnerOf] returns
    the envelope's result unchanged: the call resolves with that very value
    and its trace is the request alone, so no decoder ran. *)
Theorem getOwnerOf_passthrough (config : ClientConfig)
    (data : JsonRpcRequestPayload) (w : world) (r : value) :
  w (requestOf config data)
    = Normal {| axios.data := {| result := r; error := None |} |} ->
  call (createClient config) crc721_getOwnerOf data w
  = (Normal r, [Post (requestOf config data)]).
Proof.
  intros Hw. rewrite call_course. unfold course. now rewrite Hw.
Qed.

Lemma getOwnerOf_passthrough_witness :
  call (createClient sampleConfig) crc721_getOwnerOf samplePayload
    (answering (success "0xabc123"))
  = (Normal (str "0xabc123"), [Post (requestOf sampleConfig samplePayload)]).
Proof.
  apply (getOwnerOf_passthrough sampleConfig samplePayload
           (answering (success "0xabc123")) (str "0xabc123")).
  reflexivity.
Defined.

(** ** Authentication *)

(** C8 as stated fails: a key that was supplied, but is the empty string,
    puts no [Authorization] header on the request. *)
Lemma supplied_empty_apiKey_unauthorized :
  let config := {| endpoint := "https://evm.cronos.org"; apiKey := str EmptyString |} in
  let trace :=
    (call (createClient config) crc20_getBalance samplePayload
       (answering (success "0x0"))).2 in
  exists request,
    request ∈ requests trace
    /\ requestHeaders request !! "Authorization" = None
    /\ requestHeaders request !! "Authorization"
       <> Some ("Bearer " +:+ interpolate (apiKey config)).
Proof.
  intros config trace. exists (requestOf config samplePayload).
  subst trace. rewrite call_course, requests_course, authorization_lookup.
  split; [apply list_elem_of_here|]. split; [reflexivity|discriminate].
Qed.

(** C8, amended.  Every call of every operation of a created client issues
    exactly one request.  If a non-empty apiKey was supplied, that request
    carries the header [Authorization: Bearer <apiKey>]; if no apiKey was
    supplied, or the empty string was, it carries no [Authorization]
    header. *)
Theorem authorization_header (config : ClientConfig) (op : operation)
    (data : JsonRpcRequestPayload) (w : world) :
  let trace := (call (createClient config) op data w).2 in
  (exists request, requests trace = [request])
  /\ forall request,
       request ∈ requests trace ->
       (forall key,
           apiKey config = str key -> key <> EmptyString ->
           requestHeaders request !! "Authorization" = Some ("Bearer " +:+ key))
       /\ (apiKey config = undefined \/ apiKey config = str EmptyString ->
           requestHeaders request !! "Authorization" = None).
Proof.
  intros trace. subst trace. rewrite call_course, requests_course.
  split; [eauto|].
  intros request Hin. apply list_elem_of_singleton in Hin as ->.
  rewrite authorization_lookup. split.
  - intros key -> Hkey. destruct key; [contradiction|reflexivity].
  - intros [-> | ->]; reflexivity.
Qed.

Lemma authorization_header_witness :
  requestHeaders (requestOf sampleConfig samplePayload) !! "Authorization"
  = Some "Bearer secret".
Proof.
  refine (proj1 (proj2 (authorization_header sampleConfig crc721_getOwnerOf
                          samplePayload (answering (success "0xabc123")))
                   (requestOf sampleConfig samplePayload) _)
            "secret" eq_refl _).
  - apply list_elem_of_here.
  - discriminate.
Defined.

(** C10. A client constructed with the empty string as apiKey sends no [Authorization]
    header on any call: the test on the key is a truthiness test, so the
    client is the one an absent key gives. *)
Theorem empty_apiKey_as_absent (url : string) (op : operation)
    (data : JsonRpcRequestPayload) (w : world) :
  let config := {| endpoint := url; apiKey := str EmptyString |} in
  let trace := (call (createClient config) op data w).2 in
  createClient config = createClient {| endpoint := url; apiKey := undefined |}
  /\ (exists request, requests trace = [request])
  /\ forall request,
       request ∈ requests trace ->
       requestHeaders request !! "Authorization" = None.
Proof.
  intros config trace. split; [reflexivity|].
  subst trace. rewrite call_course, requests_course. split; [eauto|].
  intros request Hin. apply list_elem_of_singleton in Hin as ->.
  now rewrite authorization_lookup.
Qed.

Lemma empty_apiKey_as_absent_witness :
  requestHeaders
    (requestOf {| endpoint := "https://evm.cronos.org"; apiKey := str EmptyString |}
       samplePayload) !! "Authorization"
  = None.
Proof.
  refine (proj2 (proj2 (empty_apiKey_as_absent "https://evm.cronos.org"
                          crc20_getSymbol samplePayload (failing networkError)))
            _ _).
  apply list_elem_of_here.
Defined.

(** ** Numerals *)

Lemma hexDigit_table (c : ascii) : formatting.hexDigit c = hexDigitValue c.
Proof. destruct c as [[] [] [] [] [] [] [] []]; reflexivity. Qed.

Lemma decimalDigit_table (d : N) :
  d < 10 -> decimalDigitValue (formatting.decimalDigit d) = Some d.
Proof.
  intros Hd.
  assert (d = 0 \/ d = 1 \/ d = 2 \/ d = 3 \/ d = 4 \/ d = 5 \/ d = 6 \/ d = 7
          \/ d = 8 \/ d = 9) as H by lia.
  repeat destruct H as [-> | H]; try subst d; reflexivity.
Qed.

Lemma decimalDigit_not_point (c : ascii) (d : N) :
  decimalDigitValue c = Some d -> Ascii.eqb c "." = false.
Proof.
  intros H. destruct (Ascii.eqb_spec c "."%char) as [-> |]; [discriminate H|reflexivity].
Qed.

Lemma horner_positional (base : N) (digits : list N) (acc : N) :
  horner base acc digits
  = acc * base ^ N.of_nat (length digits) + positional base digits.
Proof.
  revert acc. induction digits as [|d r IH]; intros acc.
  - cbn. lia.
  - cbn [horner fold_left positional length]. fold (horner base (acc * base + d) r).
    rewrite IH, Nat2N.inj_succ, N.pow_succ_r'. lia.
Qed.

Lemma positional_app (base : N) (xs ys : list N) :
  positional base (xs ++ ys)
  = positional base xs * base ^ N.of_nat (length ys) + positional base ys.
Proof.
  induction xs as [|x r IH]; [cbn; lia|].
  cbn [app positional]. rewrite IH, length_app, Nat2N.inj_add, N.pow_add_r. lia.
Qed.

Lemma positional_zeros (base : N) (j : nat) : positional base (repeat 0 j) = 0.
Proof. induction j as [|j IH]; [reflexivity|]. cbn [repeat positional]. rewrite IH. lia. Qed.

Lemma digitsOf_app (digit : ascii -> option N) (s t : string) (xs ys : list N) :
  digitsOf digit s = Some xs -> digitsOf digit t = Some ys ->
  digitsOf digit (s +:+ t) = Some (xs ++ ys).
Proof.
  revert xs. induction s as [|c s IH]; intros xs Hs Ht.
  - injection Hs as <-. exact Ht.
  - rewrite append_cons. cbn [digitsOf] in *.
    destruct (digit c) as [d|]; [|discriminate].
    destruct (digitsOf digit s) as [ds|]; [|discriminate].
    injection Hs as <-. now rewrite (IH ds eq_refl Ht).
Qed.

Lemma parseHexFrom_horner (h : string) (digits : list N) (acc : N) :
  digitsOf hexDigitValue h = Some digits ->
  formatting.parseHexFrom acc h = Some (horner 16 acc digits).
Proof.
  revert digits acc. induction h as [|c h IH]; intros digits acc H.
  - injection H as <-. reflexivity.
  - cbn [digitsOf formatting.parseHexFrom] in *. rewrite hexDigit_table.
    destruct (hexDigitValue c) as [d|]; [|discriminate].
    destruct (digitsOf hexDigitValue h) as [ds|]; [|discriminate].
    injection H as <-. now rewrite (IH ds _ eq_refl).
Qed.

(** A hexadecimal numeral, with its prefix, parses to its positional
    value. *)
Lemma parseBigInt_positional (h : string) (digits : list N) :
  digitsOf hexDigitValue h = Some digits ->
  formatting.parseBigInt ("0x" +:+ h) = Some (positional 16 digits).
Proof.
  intros H. unfold formatting.parseBigInt.
  change (formatting.stripHexPrefix ("0x" +:+ h)) with h.
  rewrite (parseHexFrom_horner h digits 0 H), horner_positional. f_equal; lia.
Qed.

Lemma digitsOf_string_of_uint (u : Decimal.uint) :
  digitsOf decimalDigitValue (NilEmpty.string_of_uint u) = Some (uintDigits u).
Proof.
  induction u as [|u IH|u IH|u IH|u IH|u IH|u IH|u IH|u IH|u IH|u IH];
    cbn [NilEmpty.string_of_uint digitsOf uintDigits]; [reflexivity|..];
    rewrite IH; reflexivity.
Qed.

Lemma horner_of_uint_acc (u : Decimal.uint) (acc : positive) :
  horner 10 (Npos acc) (uintDigits u) = Npos (Pos.of_uint_acc u acc).
Proof.
  revert acc. unfold horner.
  induction u as [|u IH|u IH|u IH|u IH|u IH|u IH|u IH|u IH|u IH|u IH];
    intros acc; cbn [uintDigits fold_left Pos.of_uint_acc]; [reflexivity|..];
    rewrite <- IH; f_equal; lia.
Qed.

Lemma horner_of_uint (u : Decimal.uint) :
  horner 10 0 (uintDigits u) = Pos.of_uint u.
Proof.
  induction u as [|u IH|u IH|u IH|u IH|u IH|u IH|u IH|u IH|u IH|u IH];
    cbn [uintDigits Pos.of_uint]; [reflexivity|exact IH|..];
    rewrite <- horner_of_uint_acc; reflexivity.
Qed.

(** The decimal representation of [n] is a non-empty run of decimal digits
    whose positional value is [n]. *)
Lemma bigIntToString_digits (n : N) :
  exists w ws,
    digitsOf decimalDigitValue (formatting.bigIntToString n) = Some (w :: ws)
    /\ positional 10 (w :: ws) = n.
Proof.
  unfold formatting.bigIntToString, NilZero.string_of_uint.
  pose proof (Unsigned.of_to n) as Hn. unfold N.of_uint in Hn.
  rewrite <- horner_of_uint, horner_positional in Hn.
  destruct (N.to_uint n) eqn:Hu;
    try (rewrite digitsOf_string_of_uint; cbn [uintDigits] in *;
         eexists _, _; split; [reflexivity|lia]).
  exists 0, []. split; [reflexivity|]. cbn in *. lia.
Qed.

Lemma fixedDigits_digits (width : nat) (n : N) :
  exists ds,
    digitsOf decimalDigitValue (formatting.fixedDigits width n) = Some ds
    /\ length ds = width
    /\ positional 10 ds = n mod 10 ^ N.of_nat width.
Proof.
  revert n. induction width as [|w IH]; intros n.
  - exists []. repeat split. cbn. now rewrite N.mod_1_r.
  - destruct (IH (n / 10)) as (ds & Hds & Hlen & Hval).
    exists (ds ++ [n mod 10]). cbn [formatting.fixedDigits]. split; [|split].
    + apply digitsOf_app; [exact Hds|]. cbn [digitsOf].
      rewrite decimalDigit_table; [reflexivity|]. apply N.mod_lt. lia.
    + rewrite length_app, Hlen. cbn. lia.
    + rewrite positional_app, Hval.
      replace (N.of_nat (S w)) with (N.succ (N.of_nat w)) by lia.
      rewrite N.pow_succ_r', N.Div0.mod_mul_r.
      change (N.of_nat (length [n mod 10])) with 1.
      change (positional 10 [n mod 10]) with (n mod 10 * 10 ^ 0 + 0).
      rewrite N.pow_1_r, N.pow_0_r. lia.
Qed.

Lemma stripTrailingZeros_digits (s : string) (ds : list N) :
  digitsOf decimalDigitValue s = Some ds ->
  exists ds' j,
    digitsOf decimalDigitValue (formatting.stripTrailingZeros s) = Some ds'
    /\ ds = ds' ++ repeat 0 j.
Proof.
  revert ds. induction s as [|c s IH]; intros ds H.
  - injection H as <-. now exists [], 0%nat.
  - cbn [digitsOf] in H.
    destruct (decimalDigitValue c) as [d|] eqn:Hc; [|discriminate].
    destruct (digitsOf decimalDigitValue s) as [dr|]; [|discriminate].
    injection H as <-. destruct (IH dr eq_refl) as (ds' & j & Hs & ->).
    cbn [formatting.stripTrailingZeros].
    destruct (formatting.stripTrailingZeros s) as [|c' s'] eqn:Hstrip.
    + injection Hs as <-. destruct (Ascii.eqb_spec c "0"%char) as [-> |].
      * vm_compute in Hc. injection Hc as <-. now exists [], (S j).
      * exists [d], j. cbn [digitsOf]. now rewrite Hc.
    + exists (d :: ds'), j. split; [|reflexivity].
      change (digitsOf decimalDigitValue (String c (String c' s')))
        with (match decimalDigitValue c, digitsOf decimalDigitValue (String c' s') with
              | Some d, Some ds => Some (d :: ds)
              | _, _ => None
              end).
      now rewrite Hc, Hs.
Qed.

Lemma splitAtPoint_whole (s : string) (ds : list N) :
  digitsOf decimalDigitValue s = Some ds -> splitAtPoint s = (s, None).
Proof.
  revert ds. induction s as [|c s IH]; intros ds H; [reflexivity|].
  cbn [digitsOf splitAtPoint] in *.
  destruct (decimalDigitValue c) as [d|] eqn:Hc; [|discriminate].
  destruct (digitsOf decimalDigitValue s) as [dr|]; [|discriminate].
  now rewrite (decimalDigit_not_point c d Hc), (IH dr eq_refl).
Qed.

Lemma splitAtPoint_fraction (s f : string) (ds : list N) :
  digitsOf decimalDigitValue s = Some ds ->
  splitAtPoint (s +:+ "." +:+ f) = (s, Some f).
Proof.
  revert ds. induction s as [|c s IH]; intros ds H; [reflexivity|].
  rewrite append_cons. cbn [digitsOf splitAtPoint] in *.
  destruct (decimalDigitValue c) as [d|] eqn:Hc; [|discriminate].
  destruct (digitsOf decimalDigitValue s) as [dr|]; [|discriminate].
  now rewrite (decimalDigit_not_point c d Hc), (IH dr eq_refl).
Qed.

Lemma inject_Z_nonzero (z : Z) : (0 < z)%Z -> ~ (inject_Z z == 0)%Q.
Proof. unfold Qeq. cbn. lia. Qed.

Lemma exact_quotient (a P : Z) :
  (0 < P)%Z -> (inject_Z a == inject_Z (P * a) / inject_Z P)%Q.
Proof.
  intros HP. rewrite inject_Z_mult. field. now apply inject_Z_nonzero.
Qed.

Lemma decimal_quotient (a F P J : Z) :
  (0 < P)%Z -> (0 < J)%Z ->
  (inject_Z a + inject_Z F / inject_Z P
   == inject_Z (P * J * a + F * J) / inject_Z (P * J))%Q.
Proof.
  intros HP HJ. rewrite inject_Z_plus, !inject_Z_mult. field.
  split; now apply inject_Z_nonzero.
Qed.

(** The numeral written for [n] at [decimals] decimals denotes exactly
    [n / 10^decimals]. *)
Lemma scaleToString_value (n : N) (decimals : nat) :
  exists q,
    decimalValue (formatting.scaleToString n decimals) = Some q
    /\ (q == inject_Z (Z.of_N n) / inject_Z (10 ^ Z.of_nat decimals))%Q.
Proof.
  unfold formatting.scaleToString.
  set (unit := 10 ^ N.of_nat decimals).
  assert (Hunit : Z.of_N unit = (10 ^ Z.of_nat decimals)%Z)
    by (unfold unit; now rewrite N2Z.inj_pow, nat_N_Z).
  assert (Hpos : 0 < unit) by (unfold unit; apply N.neq_0_lt_0, N.pow_nonzero; lia).
  pose proof (N.div_mod n unit ltac:(lia)) as Hn.
  destruct (bigIntToString_digits (n / unit)) as (w0 & ws & Hw & Hwv).
  destruct (N.eqb_spec (n mod unit) 0) as [Hr|Hr].
  - unfold decimalValue. rewrite (splitAtPoint_whole _ _ Hw), Hw.
    eexists. split; [reflexivity|]. rewrite Hwv, <- Hunit.
    rewrite Hr, N.add_0_r in Hn. rewrite Hn at 2. rewrite N2Z.inj_mul.
    apply exact_quotient. lia.
  - destruct (fixedDigits_digits decimals (n mod unit)) as (fs & Hfs & Hlen & Hfv).
    fold unit in Hfv. rewrite N.Div0.mod_mod in Hfv.
    destruct (stripTrailingZeros_digits _ _ Hfs) as (fs' & j & Hstrip & ->).
    rewrite positional_app, positional_zeros, repeat_length, N.add_0_r in Hfv.
    destruct fs' as [|f0 fss]; [cbn in Hfv; lia|].
    unfold decimalValue. rewrite (splitAtPoint_fraction _ _ _ Hw), Hw, Hstrip.
    eexists. split; [reflexivity|]. rewrite Hwv.
    set (F := positional 10 (f0 :: fss)) in *.
    rewrite length_app, repeat_length in Hlen.
    assert (Hsplit : (10 ^ Z.of_nat decimals
                      = 10 ^ Z.of_nat (length (f0 :: fss)) * 10 ^ Z.of_nat j)%Z)
      by (rewrite <- Z.pow_add_r by lia; f_equal; lia).
    assert (HnZ : Z.of_N n
                  = (10 ^ Z.of_nat (length (f0 :: fss)) * 10 ^ Z.of_nat j
                       * Z.of_N (n / unit)
                     + Z.of_N F * 10 ^ Z.of_nat j)%Z).
    { rewrite <- Hsplit, <- Hunit. rewrite Hn at 1. rewrite <- Hfv.
      rewrite N2Z.inj_add, !N2Z.inj_mul, N2Z.inj_pow, nat_N_Z. reflexivity. }
    rewrite HnZ, Hsplit. apply decimal_quotient; apply Z.pow_pos_nonneg; lia.
Qed.

(** C3. For every hexadecimal numeral [h] (any length, either case, so of
    arbitrary magnitude) with the [0x] prefix and every number of decimals,
    [formatTokenAmount] returns a decimal numeral that denotes exactly the
    rational [value of h / 10^decimals], where the value of [h] is its
    positional value as a big integer; at 0 decimals it returns the decimal
    representation of that value itself. *)
Theorem formatTokenAmount_exact (h : string) (digits : list N) (decimals : nat) :
  digitsOf hexDigitValue h = Some digits ->
  (exists out q,
      formatting.formatTokenAmount (str ("0x" +:+ h)) decimals = Normal out
      /\ decimalValue out = Some q
      /\ (q == inject_Z (Z.of_N (positional 16 digits))
               / inject_Z (10 ^ Z.of_nat decimals))%Q)
  /\ (exists ds,
        formatting.formatTokenAmount (str ("0x" +:+ h)) 0
        = Normal (formatting.bigIntToString (positional 16 digits))
        /\ digitsOf decimalDigitValue (formatting.bigIntToString (positional 16 digits))
           = Some ds
        /\ positional 10 ds = positional 16 digits).
Proof.
  intros H. unfold formatting.formatTokenAmount.
  rewrite (parseBigInt_positional h digits H). split.
  - destruct (scaleToString_value (positional 16 digits) decimals) as (q & Hq & Hv).
    eauto.
  - destruct (bigIntToString_digits (positional 16 digits)) as (w & ws & Hw & Hv).
    exists (w :: ws). split; [|split; assumption].
    unfold formatting.scaleToString. cbn [N.of_nat].
    now rewrite N.pow_0_r, N.mod_1_r, N.div_1_r.
Qed.

Lemma formatTokenAmount_exact_witness :
  let digits := [3; 6; 3; 5; 12; 9; 10; 13; 12; 5; 13; 14; 10; 0; 0; 0; 0; 0] in
  2 ^ 64 < positional 16 digits
  /\ formatting.formatTokenAmount (str "0x3635c9adc5dea00000") 0
     = Normal "1000000000000000000000"
  /\ exists out q,
       formatting.formatTokenAmount (str "0x3635c9adc5dea00000") 3 = Normal out
       /\ decimalValue out = Some q
       /\ (q == inject_Z (Z.of_N (positional 16 digits)) / inject_Z (10 ^ 3))%Q.
Proof.
  intros digits. split; [reflexivity|]. split; [reflexivity|].
  exact (proj1 (formatTokenAmount_exact "3635c9adc5dea00000" digits 3 eq_refl)).
Defined.

Lemma scaleToString_zero (decimals : nat) : formatting.scaleToString 0 decimals = "0".
Proof.
  unfold formatting.scaleToString. now rewrite N.Div0.mod_0_l, N.Div0.div_0_l.
Qed.

Lemma parseHexFrom_zeros (k : nat) : formatting.parseHexFrom 0 (zeros k) = Some 0.
Proof. induction k as [|k IH]; [reflexivity|exact IH]. Qed.

Lemma stripHexPrefix_zeros (k : nat) : formatting.stripHexPrefix (zeros k) = zeros k.
Proof. destruct k as [|[|k]]; reflexivity. Qed.

(** C9. Whatever the number of decimals, [formatTokenAmount] yields "0" on
    "0x0", on an all-zero payload (with or without the prefix) and on an
    empty payload (the bare prefix, or the empty string). *)
Theorem zero_payload_is_zero (decimals k : nat) :
  formatting.formatTokenAmount (str "0x0") decimals = Normal "0"
  /\ formatting.formatTokenAmount (str ("0x" +:+ zeros k)) decimals = Normal "0"
  /\ formatting.formatTokenAmount (str (zeros k)) decimals = Normal "0"
  /\ formatting.formatTokenAmount (str "0x") decimals = Normal "0"
  /\ formatting.formatTokenAmount (str EmptyString) decimals = Normal "0".
Proof.
  unfold formatting.formatTokenAmount, formatting.parseBigInt.
  change (formatting.stripHexPrefix ("0x" +:+ zeros k)) with (zeros k).
  rewrite stripHexPrefix_zeros, parseHexFrom_zeros.
  cbn [formatting.stripHexPrefix formatting.parseHexFrom].
  change (formatting.parseHexFrom 0 "0") with (Some 0).
  rewrite scaleToString_zero. repeat split.
Qed.

(** C6. [crc20.getTotalSupply] applies the 6-decimal scaling to a
    successful result: for every hexadecimal numeral the node returns, the
    call resolves with a decimal numeral that denotes exactly
    [value / 10^6], after one call of [formatTokenAmount] with 6 decimals;
    for the hex encoding of 1000000 it yields "1". *)
Theorem totalSupply_scaled_by_6 (config : ClientConfig) (data : JsonRpcRequestPayload) :
  (forall h digits,
      digitsOf hexDigitValue h = Some digits ->
      exists out q,
        call (createClient config) crc20_getTotalSupply data
          (answering (success ("0x" +:+ h)))
        = (Normal (str out),
           [Post (requestOf config data);
            Decode (formatTokenAmount 6) (str ("0x" +:+ h))])
        /\ decimalValue out = Some q
        /\ (q == inject_Z (Z.of_N (positional 16 digits)) / inject_Z (10 ^ 6))%Q)
  /\ (forall r,
        (call (createClient config) crc20_getTotalSupply data (answering (success r))).1
        = match formatting.formatTokenAmount (str r) 6 with
          | Normal s => Normal (str s)
          | Throw e => Throw e
          end)
  /\ formatting.parseBigInt "0xf4240" = Some 1000000
  /\ call (createClient config) crc20_getTotalSupply data
       (answering (success "0xf4240"))
     = (Normal (str "1"),
        [Post (requestOf config data);
         Decode (formatTokenAmount 6) (str "0xf4240")]).
Proof.
  split; [|split; [|split]].
  - intros h digits Hh.
    rewrite (call_success config crc20_getTotalSupply data _ (str ("0x" +:+ h))
               (formatTokenAmount 6) eq_refl eq_refl).
    cbn [applyDecoder]. unfold formatting.formatTokenAmount.
    rewrite (parseBigInt_positional h digits Hh).
    destruct (scaleToString_value (positional 16 digits) 6) as (q & Hq & Hv).
    exists (formatting.scaleToString (positional 16 digits) 6), q.
    split; [reflexivity|]. split; [exact Hq|exact Hv].
  - intros r.
    rewrite (call_success config crc20_getTotalSupply data _ (str r)
               (formatTokenAmount 6) eq_refl eq_refl).
    cbn [applyDecoder].
    destruct (formatting.formatTokenAmount (str r) 6); reflexivity.
  - reflexivity.
  - rewrite (call_success config crc20_getTotalSupply data _ (str "0xf4240")
               (formatTokenAmount 6) eq_refl eq_refl).
    reflexivity.
Qed.

Lemma totalSupply_scaled_by_6_witness :
  let digits := [1; 14; 8; 4; 8; 0] in
  (call (createClient sampleConfig) crc20_getTotalSupply samplePayload
     (answering (success "0x16e360"))).1
  = Normal (str "1.5")
  /\ positional 16 digits = 2000000
  /\ exists out q,
       call (createClient sampleConfig) crc20_getTotalSupply samplePayload
         (answering (success ("0x" +:+ "1e8480")))
       = (Normal (str out),
          [Post (requestOf sampleConfig samplePayload);
           Decode (formatTokenAmount 6) (str ("0x" +:+ "1e8480"))])
       /\ decimalValue out = Some q
       /\ (q == inject_Z (Z.of_N (positional 16 digits)) / inject_Z (10 ^ 6))%Q.
Proof.
  intros digits. split; [reflexivity|]. split; [reflexivity|].
  exact (proj1 (totalSupply_scaled_by_6 sampleConfig samplePayload)
           "1e8480" digits eq_refl).
Defined.

(** ** ABI strings *)

Lemma hexToBytes_byte (b : Byte.byte) :
  formatting.hexDigit (hexChar (Byte.to_N b / 16)) = Some (Byte.to_N b / 16)
  /\ formatting.hexDigit (hexChar (Byte.to_N b mod 16)) = Some (Byte.to_N b mod 16)
  /\ formatting.byteOfNibbles (Byte.to_N b / 16) (Byte.to_N b mod 16) = b.
Proof. destruct b; repeat split; reflexivity. Qed.

Lemma hexToBytes_toHex (bs : list Byte.byte) :
  formatting.hexToBytes (toHex bs) = Some bs.
Proof.
  induction bs as [|b r IH]; [reflexivity|].
  cbn [toHex formatting.hexToBytes].
  destruct (hexToBytes_byte b) as (-> & -> & ->). now rewrite IH.
Qed.

Lemma stripHexPrefix_toHex (bs : list Byte.byte) :
  formatting.stripHexPrefix (toHex bs) = toHex bs.
Proof.
  destruct bs as [|b r]; [reflexivity|]. cbn [toHex].
  destruct b; reflexivity.
Qed.

Lemma length_wordBytes (width : nat) (n : N) : length (wordBytes width n) = width.
Proof.
  revert n. induction width as [|w IH]; intros n; [reflexivity|].
  cbn [wordBytes]. rewrite length_app, IH. cbn. lia.
Qed.

Lemma stripTrailingNulls_nulls (j : nat) :
  formatting.stripTrailingNulls (repeat Byte.x00 j) = [].
Proof. induction j as [|j IH]; [reflexivity|]. cbn. now rewrite IH. Qed.

(** Padding goes, text without null bytes stays. *)
Lemma stripTrailingNulls_padded (p : list Byte.byte) (j : nat) :
  forallb (fun b => negb (Byte.eqb b Byte.x00)) p = true ->
  formatting.stripTrailingNulls (p ++ repeat Byte.x00 j) = p.
Proof.
  induction p as [|b p IH]; intros H.
  - apply stripTrailingNulls_nulls.
  - cbn [forallb] in H. apply andb_prop in H as [Hb Hp].
    cbn [app formatting.stripTrailingNulls]. rewrite (IH Hp).
    apply negb_true_iff in Hb. rewrite Hb. now destruct p.
Qed.

Lemma stripTrailingNulls_plain (p : list Byte.byte) :
  forallb (fun b => negb (Byte.eqb b Byte.x00)) p = true ->
  formatting.stripTrailingNulls p = p.
Proof.
  intros H. rewrite <- (app_nil_r p) at 1.
  exact (stripTrailingNulls_padded p 0 H).
Qed.

Lemma bigEndian_lower_bound (bs : list Byte.byte) (acc : N) :
  acc * 256 ^ N.of_nat (length bs)
  <= fold_left (fun a b => a * 256 + Byte.to_N b) bs acc.
Proof.
  revert acc. induction bs as [|b r IH]; intros acc.
  - cbn. lia.
  - cbn [fold_left length]. etransitivity; [|apply IH].
    rewrite Nat2N.inj_succ, N.pow_succ_r'. nia.
Qed.

(** Text without null bytes is never taken for an ABI-encoded string. *)
Lemma plain_has_no_header (p : list Byte.byte) :
  forallb (fun b => negb (Byte.eqb b Byte.x00)) p = true ->
  formatting.hasAbiHeader p = false.
Proof.
  intros H. unfold formatting.hasAbiHeader.
  destruct (Nat.leb_spec 64 (length p)) as [Hlen|]; [|reflexivity].
  destruct p as [|b r]; [cbn in Hlen; lia|].
  cbn [forallb] in H. apply andb_prop in H as [Hb _].
  apply negb_true_iff, Byte.eqb_false in Hb.
  assert (1 <= Byte.to_N b) as Hb1.
  { destruct (N.eq_dec (Byte.to_N b) 0) as [E|]; [|lia].
    exfalso. apply Hb. pose proof (Byte.of_to_N b) as Hof.
    rewrite E in Hof. now injection Hof. }
  cbn [andb]. apply N.eqb_neq. unfold formatting.bigEndian.
  change (take 32 (b :: r)) with (b :: take 31 r). cbn [fold_left].
  pose proof (bigEndian_lower_bound (take 31 r) (0 * 256 + Byte.to_N b)) as Hge.
  rewrite length_take, Nat.min_l in Hge by (cbn in Hlen; lia).
  assert (32 < 256 ^ N.of_nat 31) as Hbig by reflexivity.
  nia.
Qed.

Lemma abi_has_header (s : string) : formatting.hasAbiHeader (abiEncodeString s) = true.
Proof.
  unfold formatting.hasAbiHeader, abiEncodeString. apply andb_true_intro. split.
  - apply Nat.leb_le. rewrite !length_app. unfold uint256.
    rewrite !length_wordBytes. lia.
  - rewrite take_app_length' by (symmetry; apply length_wordBytes). reflexivity.
Qed.

Lemma abi_body (s : string) :
  drop 64 (abiEncodeString s)
  = list_byte_of_string s
    ++ repeat Byte.x00 (padding (length (list_byte_of_string s))).
Proof.
  unfold abiEncodeString. rewrite app_assoc. apply drop_app_length'.
  rewrite length_app. unfold uint256. now rewrite !length_wordBytes.
Qed.

(** C4. For every plain text [s] (well-formed UTF-8, no null character):
    decoding the hexadecimal form of its standard ABI encoding (offset
    word, length word, payload padded with null bytes to a 32-byte
    boundary) yields exactly [s]; and decoding the hexadecimal form of the
    bare, unpadded text yields [s] as well, with or without the [0x]
    prefix. *)
Theorem decodeHexString_roundtrip (s : string) :
  plainText s = true ->
  formatting.decodeHexString (str ("0x" +:+ toHex (abiEncodeString s))) = Normal s
  /\ formatting.decodeHexString (str ("0x" +:+ toHex (list_byte_of_string s))) = Normal s
  /\ formatting.decodeHexString (str (toHex (list_byte_of_string s))) = Normal s.
Proof.
  unfold plainText. intros H. apply andb_prop in H as [Hutf8 Hnull].
  unfold formatting.decodeHexString.
  change (formatting.stripHexPrefix ("0x" +:+ toHex (abiEncodeString s)))
    with (toHex (abiEncodeString s)).
  change (formatting.stripHexPrefix ("0x" +:+ toHex (list_byte_of_string s)))
    with (toHex (list_byte_of_string s)).
  rewrite stripHexPrefix_toHex, !hexToBytes_toHex.
  rewrite abi_has_header, abi_body, (plain_has_no_header _ Hnull).
  rewrite (stripTrailingNulls_padded _ _ Hnull).
  rewrite (stripTrailingNulls_plain _ Hnull), Hutf8.
  now rewrite string_of_list_byte_of_string.
Qed.

Lemma decodeHexString_roundtrip_witness :
  plainText "Wrapped CRO" = true
  /\ formatting.decodeHexString (str ("0x" +:+ toHex (abiEncodeString "Wrapped CRO")))
     = Normal "Wrapped CRO"
  /\ formatting.decodeHexString (str "0x577261707065642043524f") = Normal "Wrapped CRO"
  /\ formatting.decodeHexString (str ("0x" +:+ toHex (abiEncodeString "Crédit €")))
     = Normal "Crédit €".
Proof.
  split; [reflexivity|]. split; [|split].
  - exact (proj1 (decodeHexString_roundtrip "Wrapped CRO" eq_refl)).
  - exact (proj1 (proj2 (decodeHexString_roundtrip "Wrapped CRO" eq_refl))).
  - exact (proj1 (decodeHexString_roundtrip "Crédit €" eq_refl)).
Defined.

(** ** Further properties of the method tables and the facade *)

(** X1. Every call of every operation issues exactly one request, before
    anything else happens: a POST to the configured endpoint, with the empty
    path and the caller's payload as the body, unchanged and unvalidated.
    The only header the configuration can contribute is [Authorization]. *)
Theorem one_request_forwarded (config : ClientConfig) (op : operation)
    (data : JsonRpcRequestPayload) (w : world) :
  exists request rest,
    (call (createClient config) op data w).2 = Post request :: rest
    /\ requests rest = []
    /\ requestBaseURL request = endpoint config
    /\ requestUrl request = EmptyString
    /\ requestBody request = data
    /\ forall key, key <> "Authorization" -> requestHeaders request !! key = None.
Proof.
  rewrite call_course. exists (requestOf config data).
  assert (Hkeys : forall key, key <> "Authorization" ->
                    requestHeaders (requestOf config data) !! key = None).
  { intros key Hkey. unfold requestOf. cbn [requestHeaders].
    destruct (truthy (apiKey config)).
    - apply lookup_singleton_ne. congruence.
    - apply lookup_empty. }
  unfold course.
  destruct (w (requestOf config data)) as [[[r [err|]]]|e];
    cbn [axios.data error result].
  - eexists. repeat split; exact Hkeys.
  - destruct (decoderOf op) as [d|]; [destruct (applyDecoder d r)|];
      eexists; repeat split; exact Hkeys.
  - eexists. repeat split; exact Hkeys.
Qed.

Lemma one_request_forwarded_witness :
  exists request rest,
    (call (createClient sampleConfig) crc20_getSymbol samplePayload
       (answering revert)).2 = Post request :: rest
    /\ requestBody request = samplePayload
    /\ requestHeaders request !! "Content-Type" = None.
Proof.
  destruct (one_request_forwarded sampleConfig crc20_getSymbol samplePayload
              (answering revert))
    as (request & rest & Htrace & _ & _ & _ & Hbody & Hkeys).
  exists request, rest. split; [exact Htrace|]. split; [exact Hbody|].
  apply Hkeys. discriminate.
Defined.

(** X2. A call writes a log line exactly when it fails: the trace of a
    call that resolves has no log line, the trace of a call that rejects
    has at least one. *)
Theorem logged_iff_rejected (config : ClientConfig) (op : operation)
    (data : JsonRpcRequestPayload) (w : world) :
  let outcome := call (createClient config) op data w in
  logTags outcome.2 = [] <-> exists v, outcome.1 = Normal v.
Proof.
  intros outcome. subst outcome. rewrite call_course. unfold course.
  destruct (w (requestOf config data)) as [[[r [err|]]]|e];
    cbn [axios.data error result].
  - split; [discriminate|intros [v H]; discriminate H].
  - destruct (decoderOf op) as [d|]; [destruct (applyDecoder d r)|]; cbn;
      (split; [eauto; discriminate|try reflexivity; intros [v H]; discriminate H]).
  - split; [discriminate|intros [v H]; discriminate H].
Qed.

Lemma logged_iff_rejected_witness :
  logTags (call (createClient sampleConfig) crc721_getOwnerOf samplePayload
             (answering (success "0xabc123"))).2 = [].
Proof.
  apply (proj2 (logged_iff_rejected sampleConfig crc721_getOwnerOf samplePayload
                  (answering (success "0xabc123")))).
  exists (str "0xabc123"). reflexivity.
Defined.

(** X3. A call resolves only when the transport answered, the envelope
    carried no error and the decoder, if the operation has one, returned
    normally on the envelope's result: the resolved value is then the
    decoder's output (or the result itself for [getOwnerOf]), and the trace
    is the request followed by that one decoder call. *)
Theorem resolution_inversion (config : ClientConfig) (op : operation)
    (data : JsonRpcRequestPayload) (w : world) (v : value) :
  (call (createClient config) op data w).1 = Normal v ->
  exists r,
    w (requestOf config data)
      = Normal {| axios.data := {| result := r; error := None |} |}
    /\ match decoderOf op with
       | Some d =>
           exists s,
             applyDecoder d r = Normal s /\ v = str s
             /\ (call (createClient config) op data w).2
                = [Post (requestOf config data); Decode d r]
       | None =>
           v = r
           /\ (call (createClient config) op data w).2
              = [Post (requestOf config data)]
       end.
Proof.
  rewrite call_course. unfold course.
  destruct (w (requestOf config data)) as [[[r [err|]]]|e];
    cbn [axios.data error result]; [discriminate| |discriminate].
  intros H. exists r. split; [reflexivity|].
  destruct (decoderOf op) as [d|].
  - destruct (applyDecoder d r) as [s|e]; [|discriminate H].
    injection H as <-. now exists s.
  - injection H as <-. split; reflexivity.
Qed.

Lemma resolution_inversion_witness :
  exists r,
    answering (success "0x0de0b6b3a7640000") (requestOf sampleConfig samplePayload)
      = Normal {| axios.data := {| result := r; error := None |} |}
    /\ exists s,
         applyDecoder weiToEther r = Normal s /\ str "1" = str s
         /\ (call (createClient sampleConfig) crc20_getBalance samplePayload
               (answering (success "0x0de0b6b3a7640000"))).2
            = [Post (requestOf sampleConfig samplePayload); Decode weiToEther r].
Proof.
  exact (resolution_inversion sampleConfig crc20_getBalance samplePayload
           (answering (success "0x0de0b6b3a7640000")) (str "1") eq_refl).
Defined.

(** X4. A node-reported error is logged twice, whatever the envelope's
    result field holds: once by the guard, with the node's message, and once
    by the catch block, with the error just thrown, whose message already
    carries the tag. *)
Theorem node_error_logged_twice (config : ClientConfig) (op : operation)
    (data : JsonRpcRequestPayload) (w : world) (r : value)
    (responseError : JsonRpcError) :
  w (requestOf config data)
    = Normal {| axios.data := {| result := r; error := Some responseError |} |} ->
  let thrown := Error (codeTag op +:+ " error: " +:+ message responseError) in
  call (createClient config) op data w
  = (Throw thrown,
     [Post (requestOf config data);
      LogError (codeTag op +:+ " error:") (logged_message (message responseError));
      LogError (codeTag op +:+ " error:") (logged_error thrown)]).
Proof.
  intros Hw thrown. rewrite call_course. unfold course. now rewrite Hw.
Qed.

Lemma node_error_logged_twice_witness :
  logTags (call (createClient sampleConfig) crc20_getBalanceOf samplePayload
             (answering revert)).2
  = ["[crc20/getBalanceOf] error:"; "[crc20/getBalanceOf] error:"].
Proof.
  rewrite (node_error_logged_twice sampleConfig crc20_getBalanceOf samplePayload
             (answering revert) undefined {| message := "execution reverted" |}
             eq_refl).
  reflexivity.
Defined.

(** X5. An error that the operation did not raise itself is logged once and
    rethrown as it is.  For a transport failure the trace is the request
    and one log line carrying the caught error, and no decoder runs; for an
    error thrown by the decoder the trace is the request, the decoder call
    and one log line carrying that error. *)
Theorem foreign_error_logged_once (config : ClientConfig) (op : operation)
    (data : JsonRpcRequestPayload) (w : world) (e : JsError) :
  (w (requestOf config data) = Throw e ->
   call (createClient config) op data w
   = (Throw e,
      [Post (requestOf config data);
       LogError (codeTag op +:+ " error:") (logged_error e)]))
  /\ (forall r d,
        w (requestOf config data)
          = Normal {| axios.data := {| result := r; error := None |} |} ->
        decoderOf op = Some d -> applyDecoder d r = Throw e ->
        call (createClient config) op data w
        = (Throw e,
           [Post (requestOf config data); Decode d r;
            LogError (codeTag op +:+ " error:") (logged_error e)])).
Proof.
  rewrite call_course. unfold course. split.
  - intros Hw. now rewrite Hw.
  - intros r d Hw Hd He. rewrite Hw, Hd. cbn [axios.data error result].
    now rewrite He.
Qed.

Lemma foreign_error_logged_once_witness :
  call (createClient sampleConfig) crc20_getName samplePayload (failing networkError)
  = (Throw networkError,
     [Post (requestOf sampleConfig samplePayload);
      LogError "[crc20/getName] error:" (logged_error networkError)])
  /\ call (createClient sampleConfig) crc20_getTotalSupply samplePayload
       (answering {| result := undefined; error := None |})
     = (Throw formatting.payloadMissing,
        [Post (requestOf sampleConfig samplePayload);
         Decode (formatTokenAmount 6) undefined;
         LogError "[crc20/getTotalSupply] error:"
           (logged_error formatting.payloadMissing)]).
Proof.
  split.
  - exact (proj1 (foreign_error_logged_once sampleConfig crc20_getName
                    samplePayload (failing networkError) networkError) eq_refl).
  - exact (proj2 (foreign_error_logged_once sampleConfig crc20_getTotalSupply
                    samplePayload
                    (answering {| result := undefined; error := None |})
                    formatting.payloadMissing)
             undefined (formatTokenAmount 6) eq_refl eq_refl eq_refl).
Defined.

(** X6. The outcome of a call depends on the world only through the answer
    to the one request the call sends: two worlds that answer that request
    alike give the same result and the same trace.  No operation retries
    or consults anything else. *)
Theorem outcome_of_one_answer (config : ClientConfig) (op : operation)
    (data : JsonRpcRequestPayload) (w1 w2 : world) :
  w1 (requestOf config data) = w2 (requestOf config data) ->
  call (createClient config) op data w1 = call (createClient config) op data w2.
Proof.
  intros H. rewrite !call_course. unfold course. now rewrite H.
Qed.

Lemma outcome_of_one_answer_witness :
  call (createClient sampleConfig) crc721_getBalanceOf samplePayload
    (answering (success "0x2"))
  = call (createClient sampleConfig) crc721_getBalanceOf samplePayload
      (fun request =>
         if String.eqb (requestBaseURL request) "https://evm.cronos.org"
         then Normal {| axios.data := success "0x2" |}
         else Throw networkError).
Proof.
  apply (outcome_of_one_answer sampleConfig crc721_getBalanceOf samplePayload).
  reflexivity.
Defined.

(** X7. Unless the node answers with a successful envelope, a call of
    [crc721.getTokenUri] cannot be told apart from a call of
    [crc721.getBalanceOf]: the rejection and every log line are the same,
    because [getTokenUri] writes the tag of [getBalanceOf]. *)
Theorem getTokenUri_fails_as_getBalanceOf (config : ClientConfig)
    (data : JsonRpcRequestPayload) (w : world) :
  (forall r,
      w (requestOf config data)
      <> Normal {| axios.data := {| result := r; error := None |} |}) ->
  call (createClient config) crc721_getTokenUri data w
  = call (createClient config) crc721_getBalanceOf data w.
Proof.
  intros Hfail. rewrite !call_course. unfold course.
  destruct (w (requestOf config data)) as [[[r [err|]]]|e];
    cbn [axios.data error result]; try reflexivity.
  now destruct (Hfail r).
Qed.

Lemma getTokenUri_fails_as_getBalanceOf_witness :
  call (createClient sampleConfig) crc721_getTokenUri samplePayload
    (failing networkError)
  = call (createClient sampleConfig) crc721_getBalanceOf samplePayload
      (failing networkError).
Proof.
  apply (getTokenUri_fails_as_getBalanceOf sampleConfig samplePayload
           (failing networkError)).
  intros r. discriminate.
Defined.

Lemma tagged_message_names_operation (op1 op2 : operation) (m1 m2 : string) :
  op1 <> crc721_getTokenUri -> op2 <> crc721_getTokenUri ->
  codeTag op1 +:+ " error: " +:+ m1 = codeTag op2 +:+ " error: " +:+ m2 ->
  op1 = op2.
Proof.
  intros H1 H2 H.
  destruct op1; try contradiction; destruct op2; try contradiction;
    try reflexivity; cbv in H; discriminate H.
Qed.

(** X8. Apart from [crc721.getTokenUri], the rejection of a node-reported
    error names its operation: if two such calls, of any clients, on any
    payloads and with any node messages, reject with the same error, they
    are calls of the same operation. *)
Theorem rejection_names_operation (config1 config2 : ClientConfig)
    (op1 op2 : operation) (data1 data2 : JsonRpcRequestPayload)
    (w1 w2 : world) (r1 r2 : value) (err1 err2 : JsonRpcError) (e : JsError) :
  op1 <> crc721_getTokenUri -> op2 <> crc721_getTokenUri ->
  w1 (requestOf config1 data1)
    = Normal {| axios.data := {| result := r1; error := Some err1 |} |} ->
  w2 (requestOf config2 data2)
    = Normal {| axios.data := {| result := r2; error := Some err2 |} |} ->
  (call (createClient config1) op1 data1 w1).1 = Throw e ->
  (call (createClient config2) op2 data2 w2).1 = Throw e ->
  op1 = op2.
Proof.
  intros H1 H2 Hw1 Hw2. rewrite !call_course. unfold course.
  rewrite Hw1, Hw2. cbn [axios.data error result fst].
  intros He1 He2. rewrite <- He1 in He2.
  injection He2 as He2. symmetry in He2.
  exact (tagged_message_names_operation op1 op2 _ _ H1 H2 He2).
Qed.

Lemma rejection_names_operation_witness :
  (call (createClient sampleConfig) crc20_getBalance samplePayload
     (answering revert)).1
  <> (call (createClient sampleConfig) crc20_getBalanceOf samplePayload
        (answering revert)).1.
Proof.
  intros H.
  assert (crc20_getBalance = crc20_getBalanceOf) as Habsurd;
    [|discriminate Habsurd].
  apply (rejection_names_operation sampleConfig sampleConfig
           crc20_getBalance crc20_getBalanceOf samplePayload samplePayload
           (answering revert) (answering revert) undefined undefined
           {| message := "execution reverted" |}
           {| message := "execution reverted" |}
           (Error "[crc20/getBalanceOf] error: execution reverted"));
    [discriminate|discriminate|reflexivity|reflexivity|exact H|reflexivity].
Defined.

(** X9. Operations that apply the same decoder ([crc20.getBalance] and
    [crc20.getBalanceOf]; [crc20.getName], [crc20.getSymbol] and
    [crc721.getTokenUri]) differ in their tags only.  On the same client,
    payload and world they send the same request and make the same decoder
    call, and they write the same number of log lines.  Unless the node
    reports an error they settle alike, with the same value or the same
    rethrown error, and log the same details; on a node-reported error each
    rejects with its own tag followed by the same node message. *)
Theorem same_decoder_same_outcome (config : ClientConfig) (op1 op2 : operation)
    (data : JsonRpcRequestPayload) (w : world) :
  decoderOf op1 = decoderOf op2 ->
  let outcome1 := call (createClient config) op1 data w in
  let outcome2 := call (createClient config) op2 data w in
  withoutLogs outcome1.2 = withoutLogs outcome2.2
  /\ length (logTags outcome1.2) = length (logTags outcome2.2)
  /\ ((forall r responseError,
          w (requestOf config data)
          <> Normal {| axios.data := {| result := r; error := Some responseError |} |}) ->
      outcome1.1 = outcome2.1 /\ logDetails outcome1.2 = logDetails outcome2.2)
  /\ (forall r responseError,
        w (requestOf config data)
          = Normal {| axios.data := {| result := r; error := Some responseError |} |} ->
        outcome1.1
          = Throw (Error (codeTag op1 +:+ " error: " +:+ message responseError))
        /\ outcome2.1
           = Throw (Error (codeTag op2 +:+ " error: " +:+ message responseError))).
Proof.
  intros Hd outcome1 outcome2. subst outcome1 outcome2.
  rewrite !call_course. unfold course. rewrite Hd.
  destruct (w (requestOf config data)) as [[[r [err|]]]|e];
    cbn [axios.data error result].
  - split; [reflexivity|]. split; [reflexivity|]. split.
    + intros Hne. now destruct (Hne r err).
    + intros r' err' Heq. injection Heq as _ <-. split; reflexivity.
  - destruct (decoderOf op2) as [d|]; [destruct (applyDecoder d r)|];
      (split; [reflexivity|]; split; [reflexivity|]; split;
       [intros _; split; reflexivity|intros r' err' Heq; discriminate Heq]).
  - split; [reflexivity|]. split; [reflexivity|]. split;
      [intros _; split; reflexivity|intros r' err' Heq; discriminate Heq].
Qed.

Lemma same_decoder_same_outcome_witness :
  (call (createClient sampleConfig) crc20_getBalance samplePayload
     (failing networkError)).1
  = (call (createClient sampleConfig) crc20_getBalanceOf samplePayload
       (failing networkError)).1
  /\ (call (createClient sampleConfig) crc20_getName samplePayload
        (answering revert)).1
     = Throw (Error "[crc20/getName] error: execution reverted")
  /\ (call (createClient sampleConfig) crc721_getTokenUri samplePayload
        (answering revert)).1
     = Throw (Error "[crc721/getBalanceOf] error: execution reverted").
Proof.
  split.
  - refine (proj1 (proj1 (proj2 (proj2
              (same_decoder_same_outcome sampleConfig crc20_getBalance
                 crc20_getBalanceOf samplePayload (failing networkError)
                 eq_refl))) _)).
    intros r responseError. discriminate.
  - exact (proj2 (proj2 (proj2
             (same_decoder_same_outcome sampleConfig crc20_getName
                crc721_getTokenUri samplePayload (answering revert) eq_refl)))
             undefined {| message := "execution reverted" |} eq_refl).
Defined.

(** X10. The operations of one client share one transport instance: the
    requests of any two calls of the same client, whatever the operations,
    payloads and worlds, go to the same base URL with the same headers. *)
Theorem one_instance_per_client (config : ClientConfig) (op1 op2 : operation)
    (data1 data2 : JsonRpcRequestPayload) (w1 w2 : world)
    (request1 request2 : HttpRequest) :
  request1 ∈ requests (call (createClient config) op1 data1 w1).2 ->
  request2 ∈ requests (call (createClient config) op2 data2 w2).2 ->
  requestBaseURL request1 = requestBaseURL request2
  /\ requestHeaders request1 = requestHeaders request2.
Proof.
  rewrite !call_course, !requests_course.
  intros H1 H2. apply list_elem_of_singleton in H1 as ->.
  apply list_elem_of_singleton in H2 as ->. split; reflexivity.
Qed.

Lemma one_instance_per_client_witness :
  requestHeaders (requestOf sampleConfig samplePayload)
  = requestHeaders
      (requestOf sampleConfig {| method := "eth_getBalance"; params := [] |}).
Proof.
  refine (proj2 (one_instance_per_client sampleConfig crc20_getName
                   crc20_getBalance samplePayload
                   {| method := "eth_getBalance"; params := [] |}
                   (answering revert) (failing networkError) _ _ _ _));
    apply list_elem_of_here.
Defined.
